(** * LearnPlan: the deterministic planner and the plan validator

    A shallow embedding of [src/planner.ts] (the generator) and of the
    business-logic validation of [src/schema.ts] (the validator), followed
    by the properties stated about them.

    Conventions of the embedding.
    - A JavaScript [number] that carries hours is an exact rational [Q]:
      the arithmetic of the source is kept operation by operation, without
      the representation error and the overflow of binary64.  Numeric
      equality is [==] ([Qeq]).
    - A [number] that counts (weeks, week numbers, indices, lengths) is a
      [nat].
    - [Math.round x] is the integer [floor (x + 1/2)].
    - A template literal that interpolates a number into an error message is
      kept as the list of its pieces, literal text and interpolated values;
      the conversion of a number to text is the runtime's.
    - An array is a [list]; [push] appends at the end; an indexed store
      [a[i] = x] is stdpp's [<[i:=x]>].
    - [JSON.stringify] is the runtime's: the generator is parameterised by
      it. *)

From Stdlib Require Import QArith Qround Qabs Lia Lqa ZArith List.
From stdpp Require Import base list strings pretty.
Import ListNotations.

(** ** Numbers *)

Definition Math_round (x : Q) : Q := inject_Z (Qfloor (x + (1 # 2))).

Definition Math_abs (x : Q) : Q := Qabs x.

Definition Math_min (a b : nat) : nat := Nat.min a b.

(** [x > y] and [x <= y] on hours, as tests. *)
Definition num_gt (x y : Q) : bool := negb (Qle_bool x y).
Definition num_le (x y : Q) : bool := Qle_bool x y.

(** A count used in hour arithmetic. *)
Definition num (n : nat) : Q := inject_Z (Z.of_nat n).

(** The double-quote character, for use inside a template. *)
Definition dquote : string := String (Ascii.ascii_of_nat 34) EmptyString.

(** ** Message templates *)

Inductive piece : Type :=
| Text (s : string)
| Count (n : nat)
| Hours (q : Q).

Definition template : Type := list piece.

(** [errors.push(e)], [plan.push(w)] *)
Definition push {A : Type} (l : list A) (x : A) : list A := l ++ [x].

(** * schema.ts *)

Module Schema.

Record Task : Type := {
  title : string;
  effort_hours : Q;
  deliverable : string
}.

Record Week : Type := {
  week : nat;
  focus : string;
  hours : Q;
  tasks : list Task;
  checkpoint : string
}.

Record LearningPlan : Type := {
  topic : string;
  level : string;
  goal : string;
  weeks : nat;
  hours_per_week : Q;
  plan : list Week
}.

Inductive ValidationErrorType : Type :=
| weeks_mismatch
| hours_mismatch
| hours_exceeded.

Record ValidationError : Type := {
  type : ValidationErrorType;
  message : template
}.

(** The three local constants of the body of the loop of [validatePlan]. *)
Definition taskSum (wk : Week) : Q :=
  fold_left (fun sum t => sum + effort_hours t)%Q (tasks wk) 0%Q.

Definition roundedSum (wk : Week) : Q :=
  (Math_round (taskSum wk * 100) / 100)%Q.

Definition roundedHours (wk : Week) : Q :=
  (Math_round (hours wk * 100) / 100)%Q.

(** The three object literals pushed by [validatePlan]. *)
Definition weeks_mismatch_error (p : LearningPlan) : ValidationError :=
  {| type := weeks_mismatch;
     message := [Text "plan array has "; Count (length (plan p));
                 Text " entries but 'weeks' is "; Count (weeks p);
                 Text ". They must match exactly."] |}.

Definition hours_mismatch_error (wk : Week) : ValidationError :=
  {| type := hours_mismatch;
     message := [Text "Week "; Count (week wk); Text ": 'hours' is ";
                 Hours (roundedHours wk);
                 Text " but task effort_hours sum to ";
                 Hours (roundedSum wk); Text ". They must be equal."] |}.

Definition hours_exceeded_error (p : LearningPlan) (wk : Week)
  : ValidationError :=
  {| type := hours_exceeded;
     message := [Text "Week "; Count (week wk); Text ": ";
                 Hours (roundedHours wk);
                 Text "h exceeds the hours_per_week limit of ";
                 Hours (hours_per_week p); Text "h."] |}.

(** One iteration of [for (const week of plan.plan)], on the accumulated
    [errors]. *)
Definition validatePlan_body (p : LearningPlan)
    (errors : list ValidationError) (wk : Week) : list ValidationError :=
  let errors :=
    if num_gt (Math_abs (roundedSum wk - roundedHours wk)) (1 # 100)
    then push errors (hours_mismatch_error wk)
    else errors in
  let errors :=
    if num_gt (roundedHours wk) (hours_per_week p)
    then push errors (hours_exceeded_error p wk)
    else errors in
  errors.

Definition validatePlan (p : LearningPlan) : list ValidationError :=
  let errors := [] in
  let errors :=
    if negb (length (plan p) =? weeks p)%nat
    then push errors (weeks_mismatch_error p)
    else errors in
  fold_left (validatePlan_body p) (plan p) errors.

(** The shape constraints of the zod schemas that are not carried by the
    types: [z.number().positive()], [z.number().int().positive()] and
    [z.array(..).min(1)]. *)
Definition TaskSchema (t : Task) : bool := num_gt (effort_hours t) 0.

Definition WeekSchema (wk : Week) : bool :=
  (0 <? week wk)%nat && num_gt (hours wk) 0
  && (1 <=? length (tasks wk))%nat && forallb TaskSchema (tasks wk).

Definition LearningPlanSchema (p : LearningPlan) : bool :=
  (0 <? weeks p)%nat && num_gt (hours_per_week p) 0
  && (1 <=? length (plan p))%nat && forallb WeekSchema (plan p).

End Schema.

(** * planner.ts *)

Module Planner.

Record PlanInputs : Type := {
  topic : string;
  level : string;
  goal : string;
  weeks : nat;
  hours_per_week : Q;
  constraints : string
}.

Record PlanResult : Type := {
  plan : Schema.LearningPlan;
  rawJson : string
}.

(** ** Phase logic *)

Inductive Phase : Type :=
| foundation
| development
| application.

#[export] Instance Phase_eq_dec : EqDecision Phase.
Proof. solve_decision. Defined.

Definition phaseOf (week total : nat) : Phase :=
  if (total =? 1)%nat then application
  else if (total =? 2)%nat then
    (if (week =? 1)%nat then foundation else application)
  else
    let ratio := (num week / num total)%Q in
    if num_le ratio (1 / 3) then foundation
    else if num_le ratio (2 / 3) then development
    else application.

(** ** Hour distribution *)

Definition tasksPerWeek (hoursPerWeek : Q) : nat :=
  if num_le hoursPerWeek 4 then 2
  else if num_le hoursPerWeek 14 then 3
  else 4.

(** [Array(count).fill(unit)] is [replicate count unit]; the store
    [hours[count - 1] = rest] hits the last slot when [count >= 1] and no
    slot of the empty array when [count = 0]. *)
Definition distributeHours (total : Q) (count : nat) : list Q :=
  let unit := (Math_round ((total / num count) * 10) / 10)%Q in
  let hours := replicate count unit in
  let rest :=
    (Math_round ((total - unit * num (count - 1)) * 100) / 100)%Q in
  <[(count - 1)%nat := rest]> hours.

(** ** Task-template banks *)

Record Tpl : Type := {
  title : string;
  deliverable : string
}.

(** [banks[idx % banks.length]] *)
Definition rotate {A : Type} (banks : list (list A)) (idx : nat) : list A :=
  nth (idx mod length banks) banks [].

Definition foundationBank (topic : string) (idx : nat) : list Tpl :=
  let banks := [
    [ {| title := "Set up " +:+ topic +:+ " development environment and toolchain";
         deliverable := "Working local environment verified with a hello-world program" |};
      {| title := "Study " +:+ topic +:+ " core concepts and mental model";
         deliverable := "Written notes covering the 5 most important concepts" |};
      {| title := "Complete beginner " +:+ topic +:+ " exercises";
         deliverable := "3+ exercises solved and committed to a repo" |};
      {| title := "Build a minimal demo project in " +:+ topic;
         deliverable := "Runnable project with a short README" |} ];
    [ {| title := "Read the official " +:+ topic +:+ " getting-started guide";
         deliverable := "Annotated notes and working code samples from the guide" |};
      {| title := "Explore " +:+ topic +:+ " syntax and common idioms through examples";
         deliverable := "Personal cheat-sheet of the most common patterns" |};
      {| title := "Reproduce 3 programs from the " +:+ topic +:+ " documentation";
         deliverable := "3 working programs with comments explaining each line" |};
      {| title := "Identify and fill 3 knowledge gaps from this week";
         deliverable := "Gap list with links to resources and notes for each" |} ]
  ] in
  rotate banks idx.

Definition developmentBank (topic : string) (idx : nat) : list Tpl :=
  let banks := [
    [ {| title := "Study " +:+ topic +:+ " data structures and common design patterns";
         deliverable := "Notes plus at least 2 implemented examples" |};
      {| title := "Build a feature-complete module using " +:+ topic;
         deliverable := "Tested module with passing unit tests" |};
      {| title := "Refactor previous code applying " +:+ topic +:+ " best practices";
         deliverable := "Pull request or commit documenting every improvement" |};
      {| title := "Read and analyse a popular open-source " +:+ topic +:+ " project";
         deliverable := "Summary of 3 patterns or techniques discovered" |} ];
    [ {| title := "Study " +:+ topic +:+ " error handling and edge-case strategies";
         deliverable := "Error-handling guide with annotated code examples" |};
      {| title := "Explore the " +:+ topic +:+ " standard library and ecosystem";
         deliverable := "Curated list of 5 useful libraries with usage notes" |};
      {| title := "Write tests for the module built last week";
         deliverable := "Test suite achieving >80% coverage" |};
      {| title := "Solve 5 intermediate " +:+ topic +:+ " exercises";
         deliverable := "Solutions with written explanation of each approach" |} ];
    [ {| title := "Study " +:+ topic +:+ " performance patterns and profiling tools";
         deliverable := "Benchmark comparing two implementations with analysis" |};
      {| title := "Build a CLI utility in " +:+ topic;
         deliverable := "Usable CLI with help text, flags, and error handling" |};
      {| title := "Peer-review or self-review an earlier project";
         deliverable := "Code-review checklist with all action items resolved" |};
      {| title := "Document a " +:+ topic +:+ " mini-library with a public API";
         deliverable := "Library with README, usage examples, and passing tests" |} ]
  ] in
  rotate banks idx.

Definition applicationBank (topic goal : string) (idx totalAppWeeks : nat)
  : list Tpl :=
  let isFirst := (idx =? 0)%nat in
  let isLast := (Z.of_nat idx =? Z.of_nat totalAppWeeks - 1)%Z in
  if isFirst then
    [ {| title := "Design the capstone project architecture for goal: "
                  +:+ dquote +:+ goal +:+ dquote;
         deliverable := "Architecture diagram, feature list, and tech-decision log" |};
      {| title := "Implement the core skeleton of the capstone project";
         deliverable := "Bootstrapped repo with main modules stubbed out" |};
      {| title := "Identify " +:+ topic +:+ " skills still needed for the capstone";
         deliverable := "Skills-gap list with a targeted study plan per gap" |};
      {| title := "Set up CI and project tooling";
         deliverable := "Automated tests running on every push" |} ]
  else if isLast then
    [ {| title := "Complete and polish the capstone project";
         deliverable := "Deployed or packaged project with full documentation" |};
      {| title := "Write a project retrospective: what you learned and what's next";
         deliverable := "Published blog post or README retrospective section" |};
      {| title := "Share the project and collect feedback";
         deliverable := "Feedback collected from ≥2 peers or community members" |};
      {| title := "Create a personal roadmap for continued growth";
         deliverable := "Next-steps document listing 3 concrete future goals" |} ]
  else
    [ {| title := "Implement the next planned feature set";
         deliverable := "Feature complete, tested, and merged to main branch" |};
      {| title := "Integrate " +:+ topic +:+ " advanced techniques from the development phase";
         deliverable := "Refactored capstone section with integration documented" |};
      {| title := "Write integration tests and fix any regressions";
         deliverable := "Full test suite green with no known open bugs" |};
      {| title := "Update project documentation and README";
         deliverable := "Clear README with usage instructions, examples, and screenshots" |} ].

(** ** Focus line and checkpoint text *)

(** [labels[i]] of a non-empty table of labels. *)
Definition label (labels : list string) (i : nat) : string :=
  nth i labels EmptyString.

Definition focusLine (phase : Phase) (idx : nat) (topic goal : string)
  : string :=
  match phase with
  | foundation =>
      if (idx =? 0)%nat
      then "Introduction & Setup — " +:+ topic
      else topic +:+ " Fundamentals — Part " +:+ pretty (idx + 1)%nat
  | development =>
      let labels := [
        "Core Patterns — " +:+ topic;
        "Error Handling & Testing — " +:+ topic;
        "Ecosystem & Performance — " +:+ topic;
        "Advanced Techniques — " +:+ topic ] in
      label labels (idx mod length labels)
  | application =>
      let labels := [
        "Project Design & Kickoff";
        "Core Feature Implementation";
        "Integration & Quality";
        "Final Polish & Portfolio" ] in
      label labels (Math_min idx (length labels - 1))
  end.

Definition checkpoint (phase : Phase) (idx : nat) (topic goal : string)
  : string :=
  match phase with
  | foundation =>
      if (idx =? 0)%nat
      then "Can explain what " +:+ topic
           +:+ " is used for and run a simple program without help"
      else "Can write a basic " +:+ topic
           +:+ " program independently without consulting notes"
  | development =>
      let checks := [
        "Can apply " +:+ topic +:+ " patterns to a new problem without referring to notes";
        "Can handle errors and write tests for " +:+ topic +:+ " code confidently";
        "Can choose the right " +:+ topic +:+ " library for a given requirement";
        "Can optimise and document " +:+ topic +:+ " code to a production standard" ] in
      label checks (idx mod length checks)
  | application =>
      "Capstone progress demonstrates ability to: " +:+ goal
  end.

(** ** Main generator *)

(** [phaseIdx : Record<Phase, number>] and the post-increment
    [phaseIdx[phase]++]. *)
Definition PhaseIdx : Type := Phase -> nat.

Definition phaseIdx_init : PhaseIdx := fun _ => 0%nat.

Definition phaseIdx_incr (phaseIdx : PhaseIdx) (phase : Phase) : PhaseIdx :=
  fun ph => if decide (ph = phase) then S (phaseIdx ph) else phaseIdx ph.

(** The pre-count of the application weeks among [1..weeks]. *)
Definition appWeekCount (weeks : nat) : nat :=
  length (filter (fun w => phaseOf w weeks = application) (seq 1 weeks)).

(** One iteration of [for (let w = 1; w <= weeks; w++)], on the state
    [(phaseIdx, plan)].  In [hrs[i]] the index is within [hrs], whose length
    is that of [selected]. *)
Definition generatePlan_body (inputs : PlanInputs) (nTasks : nat)
    (st : PhaseIdx * list Schema.Week) (w : nat)
  : PhaseIdx * list Schema.Week :=
  let '(phaseIdx, plan) := st in
  let phase := phaseOf w (weeks inputs) in
  let idx := phaseIdx phase in
  let phaseIdx := phaseIdx_incr phaseIdx phase in
  let templates :=
    match phase with
    | foundation => foundationBank (topic inputs) idx
    | development => developmentBank (topic inputs) idx
    | application =>
        applicationBank (topic inputs) (goal inputs) idx
          (appWeekCount (weeks inputs))
    end in
  let selected := take nTasks templates in
  let hrs := distributeHours (hours_per_week inputs) (length selected) in
  let tasks :=
    imap (fun i t =>
            {| Schema.title := title t;
               Schema.effort_hours := nth i hrs 0%Q;
               Schema.deliverable := deliverable t |}) selected in
  let weekHours :=
    (Math_round
       (fold_left (fun s t => s + Schema.effort_hours t) tasks 0 * 100)
     / 100)%Q in
  (phaseIdx,
   push plan
     {| Schema.week := w;
        Schema.focus := focusLine phase idx (topic inputs) (goal inputs);
        Schema.hours := weekHours;
        Schema.tasks := tasks;
        Schema.checkpoint :=
          checkpoint phase idx (topic inputs) (goal inputs) |}).

(** The [LearningPlan] built by [generatePlan] (its local [result]). *)
Definition generatePlan_result (inputs : PlanInputs) : Schema.LearningPlan :=
  let nTasks := tasksPerWeek (hours_per_week inputs) in
  let '(_, plan) :=
    fold_left (generatePlan_body inputs nTasks) (seq 1 (weeks inputs))
      (phaseIdx_init, []) in
  {| Schema.topic := topic inputs;
     Schema.level := level inputs;
     Schema.goal := goal inputs;
     Schema.weeks := weeks inputs;
     Schema.hours_per_week := hours_per_week inputs;
     Schema.plan := plan |}.

Section WithRuntime.

(** [fun v => JSON.stringify(v, null, 2)] *)
Variable JSON_stringify : Schema.LearningPlan -> string.

Definition generatePlan (inputs : PlanInputs) : PlanResult :=
  let result := generatePlan_result inputs in
  {| plan := result; rawJson := JSON_stringify result |}.

Definition fixPlan (inputs : PlanInputs) (_errors : list string)
  : PlanResult :=
  generatePlan inputs.

End WithRuntime.

End Planner.

Import Planner.
Import Schema.

(** * Definitions used by the statements *)

(** The order foundation < development < application. *)
Definition phase_rank (p : Phase) : nat :=
  match p with foundation => 0 | development => 1 | application => 2 end.

(** The classification rule as the specification words it, case by case on
    the number of weeks, the later cases of the three-way split applying
    when the earlier ones do not. *)
Inductive phase_rule (w weeks : nat) : Phase -> Prop :=
| rule_single : weeks = 1%nat -> phase_rule w weeks application
| rule_pair_first :
    weeks = 2%nat -> w = 1%nat -> phase_rule w weeks foundation
| rule_pair_second :
    weeks = 2%nat -> w = 2%nat -> phase_rule w weeks application
| rule_foundation :
    (3 <= weeks)%nat -> (num w / num weeks <= 1 / 3)%Q ->
    phase_rule w weeks foundation
| rule_development :
    (3 <= weeks)%nat -> ~ (num w / num weeks <= 1 / 3)%Q ->
    (num w / num weeks <= 2 / 3)%Q ->
    phase_rule w weeks development
| rule_application :
    (3 <= weeks)%nat -> ~ (num w / num weeks <= 1 / 3)%Q ->
    ~ (num w / num weeks <= 2 / 3)%Q ->
    phase_rule w weeks application.

(** The three checks of the validator as the specification lists them, each
    yielding the errors it reports, and their accumulation in order. *)
Definition weeks_count_check (p : LearningPlan) : list ValidationError :=
  if decide (length (plan p) = weeks p) then [] else [weeks_mismatch_error p].

Definition hours_sum_check (wk : Week) : list ValidationError :=
  if Qlt_le_dec (1 # 100) (Qabs (roundedSum wk - roundedHours wk))
  then [hours_mismatch_error wk] else [].

Definition hours_budget_check (p : LearningPlan) (wk : Week)
  : list ValidationError :=
  if Qlt_le_dec (hours_per_week p) (roundedHours wk)
  then [hours_exceeded_error p wk] else [].

Definition validate_spec (p : LearningPlan) : list ValidationError :=
  weeks_count_check p
  ++ flat_map (fun wk => hours_sum_check wk ++ hours_budget_check p wk)
       (plan p).


(** Rounding to two decimals, as the source writes it each time. *)
Definition round2 (x : Q) : Q := (Math_round (x * 100) / 100)%Q.

(** The sum of a list of hours. *)
Definition Qsum (l : list Q) : Q := fold_right Qplus 0%Q l.

(** What one iteration of the loop of [generatePlan] appends for week [w]. *)
Definition week_built (inputs : PlanInputs) (nTasks w : nat) (wk : Week)
  : Prop :=
  week wk = w
  /\ hours wk = roundedSum wk
  /\ map effort_hours (tasks wk)
     = distributeHours (Planner.hours_per_week inputs) (Nat.min nTasks 4).

(** The inputs of the test suite, for a number of weeks and a budget. *)
Definition sample (w : nat) (h : Q) : PlanInputs :=
  {| Planner.topic := "TypeScript";
     Planner.level := "beginner";
     Planner.goal := "Build a REST API";
     Planner.weeks := w;
     Planner.hours_per_week := h;
     constraints := EmptyString |}.

(** A serializer to instantiate the runtime with, where one is needed. *)
Definition no_text (_ : LearningPlan) : string := EmptyString.

(** A candidate plan whose first week records 10 hours for tasks that sum
    to 8 (the [hours_mismatch] fixture of the test suite). *)
Definition mismatched_week : Week :=
  {| week := 1;
     focus := "Basics";
     hours := 10;
     tasks := [ {| Schema.title := "T1"; effort_hours := 4;
                   Schema.deliverable := "D1" |};
                {| Schema.title := "T2"; effort_hours := 4;
                   Schema.deliverable := "D2" |} ];
     checkpoint := "C1" |}.

Definition second_week : Week :=
  {| week := 2;
     focus := "Advanced";
     hours := 6;
     tasks := [ {| Schema.title := "T3"; effort_hours := 6;
                   Schema.deliverable := "D3" |} ];
     checkpoint := "Build a small project" |}.


(** A candidate plan that announces three weeks, holds two, and allows five
    hours a week: every check has something to report. *)
Definition overloaded_plan : LearningPlan :=
  {| Schema.topic := "TypeScript";
     Schema.level := "beginner";
     Schema.goal := "Build a REST API";
     weeks := 3;
     hours_per_week := 5;
     plan := [mismatched_week; second_week] |}.

(** * index.ts *)

(** The line feed, for use inside a console line. *)
Definition nl : string := String (Ascii.ascii_of_nat 10) EmptyString.

Module Index.

(** What [main] leaves behind between reading the inputs and printing the
    plan: the lines passed to [console.log], the text written to
    [plan.json], and the plan it goes on to print. *)
Record Outcome : Type := {
  console : list template;
  plan_json : string;
  finalPlan : LearningPlan
}.

Definition console_log (console : list template) (line : template)
  : list template :=
  push console line.

Section WithRuntime.

(** [fun v => JSON.stringify(v, null, 2)] *)
Variable JSON_stringify : LearningPlan -> string.

(** The string a message template evaluates to. *)
Variable message_text : template -> string.

(** The part of [main] from the first attempt to the saving of the plan.
    The planner of this embedding returns on every input, so the two
    [catch] branches, taken only when [generatePlan] or [fixPlan] throws,
    are not part of it; [result] is then never [null]. *)
Definition main_run (inputs : PlanInputs) : Outcome :=
  let console := [] in
  let console :=
    console_log console [Text (nl +:+ "Generating your learning plan…")] in
  let firstErrors : list template := [] in
  let result := generatePlan JSON_stringify inputs in
  let validationErrors := validatePlan (Planner.plan result) in
  let firstErrors :=
    if (0 <? length validationErrors)%nat
    then map message validationErrors
    else firstErrors in
  let '(result, console) :=
    if (0 <? length firstErrors)%nat then
      let console :=
        console_log console
          [Text (nl +:+ "⚠️  Issues with first attempt:")] in
      let console :=
        fold_left (fun c e => console_log c (Text "   • " :: e))
          firstErrors console in
      let console :=
        console_log console
          [Text (nl +:+ "Retrying with corrected logic…")] in
      let result :=
        fixPlan JSON_stringify inputs (map message_text firstErrors) in
      let remainingErrors := validatePlan (Planner.plan result) in
      if (0 <? length remainingErrors)%nat then
        let console :=
          console_log console
            [Text (nl +:+ "⚠️  Some issues remain after retry:")] in
        let console :=
          fold_left (fun c e => console_log c (Text "   • " :: message e))
            remainingErrors console in
        let console :=
          console_log console [Text "Saving the best available plan."] in
        (result, console)
      else
        (result, console_log console [Text "✅ Plan fixed and validated!"])
    else
      (result, console_log console [Text "✅ Plan validated!"]) in
  let finalPlan := Planner.plan result in
  {| console :=
       console_log console [Text (nl +:+ "📄 Plan saved to plan.json")];
     plan_json := JSON_stringify finalPlan;
     finalPlan := finalPlan |}.

End WithRuntime.

End Index.

Import Index.

(** * Further definitions used by the statements *)

(** The last week of the foundation phase and of the development phase of a
    plan of [W] weeks, as whole numbers. *)
Definition foundation_end (W : nat) : nat :=
  if (W =? 2)%nat then 1%nat else (W / 3)%nat.

Definition development_end (W : nat) : nat := (2 * W / 3)%nat.

(** The weeks of a phase are those after [phase_start] up to [phase_end]. *)
Definition phase_start (W : nat) (ph : Phase) : nat :=
  match ph with
  | foundation => 0%nat
  | development => foundation_end W
  | application => development_end W
  end.

Definition phase_end (W : nat) (ph : Phase) : nat :=
  match ph with
  | foundation => foundation_end W
  | development => development_end W
  | application => W
  end.

(** The number of weeks of a phase among [1..W]. *)
Definition phase_count (W : nat) (ph : Phase) : nat :=
  length (filter (fun w => phaseOf w W = ph) (seq 1 W)).

(** The week that the body of the loop of [generatePlan] pushes for week
    [w] when the counter of its phase reads [idx]. *)
Definition build_week (inputs : PlanInputs) (nTasks w idx : nat) : Week :=
  let phase := phaseOf w (Planner.weeks inputs) in
  let templates :=
    match phase with
    | foundation => foundationBank (Planner.topic inputs) idx
    | development => developmentBank (Planner.topic inputs) idx
    | application =>
        applicationBank (Planner.topic inputs) (Planner.goal inputs) idx
          (appWeekCount (Planner.weeks inputs))
    end in
  let selected := take nTasks templates in
  let hrs :=
    distributeHours (Planner.hours_per_week inputs) (length selected) in
  let tasks :=
    imap (fun i t =>
            {| Schema.title := Planner.title t;
               effort_hours := nth i hrs 0%Q;
               Schema.deliverable := Planner.deliverable t |}) selected in
  {| week := w;
     focus := focusLine phase idx (Planner.topic inputs) (Planner.goal inputs);
     hours :=
       (Math_round
          (fold_left (fun s t => s + effort_hours t) tasks 0 * 100) / 100)%Q;
     tasks := tasks;
     checkpoint :=
       Planner.checkpoint phase idx (Planner.topic inputs)
         (Planner.goal inputs) |}.

(** The zero-based occurrence index of week [w] within its phase. *)
Definition occurrence (w W : nat) : nat :=
  (w - 1 - phase_start W (phaseOf w W))%nat.

(** Two weeks with the same hours and the same efforts, task by task. *)
Definition same_hours (wk wk' : Week) : Prop :=
  hours wk = hours wk'
  /\ map effort_hours (tasks wk) = map effort_hours (tasks wk').

(** The console lines that list the messages of some errors. *)
Definition bullets (errors : list ValidationError) : list template :=
  map (fun e => Text "   • " :: message e) errors.

(** The valid plan of the test suite, and the same plan with its two weeks
    both numbered 7 and relabelled. *)
Definition first_week : Week :=
  {| week := 1;
     focus := "Basics";
     hours := 8;
     tasks := [ {| Schema.title := "T1"; effort_hours := 4;
                   Schema.deliverable := "D1" |};
                {| Schema.title := "T2"; effort_hours := 4;
                   Schema.deliverable := "D2" |} ];
     checkpoint := "Quiz on basics" |}.

Definition valid_plan : LearningPlan :=
  {| Schema.topic := "TypeScript";
     Schema.level := "beginner";
     Schema.goal := "Build a REST API";
     weeks := 2;
     hours_per_week := 10;
     plan := [first_week; second_week] |}.

Definition relabelled_plan : LearningPlan :=
  {| Schema.topic := "Rust";
     Schema.level := "advanced";
     Schema.goal := "Build a CLI tool";
     weeks := 2;
     hours_per_week := 10;
     plan := [ {| week := 7;
                  focus := "Ownership";
                  hours := 8;
                  tasks := [ {| Schema.title := "A"; effort_hours := 4;
                                Schema.deliverable := "B" |};
                             {| Schema.title := "C"; effort_hours := 4;
                                Schema.deliverable := "D" |} ];
                  checkpoint := "E" |};
               {| week := 7;
                  focus := "Borrowing";
                  hours := 6;
                  tasks := [ {| Schema.title := "F"; effort_hours := 6;
                                Schema.deliverable := "G" |} ];
                  checkpoint := "H" |} ] |}.

(** The inputs [sample w h] with another level and other constraints. *)
Definition sample_other (w : nat) (h : Q) : PlanInputs :=
  {| Planner.topic := "TypeScript";
     Planner.level := "advanced";
     Planner.goal := "Build a REST API";
     Planner.weeks := w;
     Planner.hours_per_week := h;
     constraints := "No weekends" |}.

(** The only week of the plan generated for one week of ten hours, and the
    error reported for one week of 9.999 hours. *)
Definition only_week : Week := build_week (sample 1 10) 3 1 0.


(** * Arithmetic of the embedding *)

Section Counts.

Lemma num_le_iff (a b : nat) : (num a <= num b)%Q <-> (a <= b)%nat.
Proof. unfold num. rewrite <- Zle_Qle. lia. Qed.

Lemma num_lt_iff (a b : nat) : (num a < num b)%Q <-> (a < b)%nat.
Proof. unfold num. rewrite <- Zlt_Qlt. lia. Qed.

Lemma num_mul (a b : nat) : (num (a * b) == num a * num b)%Q.
Proof. unfold num. rewrite Nat2Z.inj_mul, inject_Z_mult. reflexivity. Qed.

Lemma num_pos (n : nat) : (0 < n)%nat -> (0 < num n)%Q.
Proof. intros H. change 0%Q with (num 0). now apply num_lt_iff. Qed.

(** Comparing two ratios of counts is comparing the cross products. *)
Lemma ratio_le (w t a b : nat) :
  (0 < t)%nat -> (0 < b)%nat ->
  (num w / num t <= num a / num b)%Q <-> (b * w <= a * t)%nat.
Proof.
  intros Ht Hb. apply num_pos in Ht as Ht', Hb as Hb'.
  rewrite <- num_le_iff, !num_mul.
  assert (E1 : (num b * num w == num w / num t * (num t * num b))%Q)
    by (field; lra).
  assert (E2 : (num a * num t == num a / num b * (num t * num b))%Q)
    by (field; lra).
  rewrite E1, E2. symmetry. apply Qmult_le_r. nra.
Qed.

End Counts.

Section Tests.

Lemma num_le_true (x y : Q) : num_le x y = true <-> (x <= y)%Q.
Proof. apply Qle_bool_iff. Qed.

Lemma num_le_false (x y : Q) : num_le x y = false <-> (y < x)%Q.
Proof.
  rewrite <- not_true_iff_false, num_le_true.
  split; [apply Qnot_le_lt | apply Qlt_not_le].
Qed.

Lemma num_gt_lt (x y : Q) : num_gt x y = true <-> (y < x)%Q.
Proof. unfold num_gt. rewrite negb_true_iff. apply num_le_false. Qed.

Lemma num_gt_dec (x y : Q) :
  num_gt x y = if Qlt_le_dec y x then true else false.
Proof.
  destruct (Qlt_le_dec y x) as [H|H].
  - now apply num_gt_lt.
  - apply not_true_iff_false. rewrite num_gt_lt. now apply Qle_not_lt.
Qed.

Lemma num_le_ratio (w t a b : nat) :
  (0 < t)%nat -> (0 < b)%nat ->
  num_le (num w / num t) (num a / num b)
  = bool_decide (b * w <= a * t)%nat.
Proof.
  intros Ht Hb. destruct (num_le _ _) eqn:E; symmetry.
  - apply bool_decide_eq_true. apply ratio_le; [done..|].
    now apply num_le_true.
  - apply bool_decide_eq_false. intros H. apply ratio_le in H; [|done..].
    apply num_le_true in H. congruence.
Qed.

End Tests.

Section Rounding.

Lemma Qfloor_unique (x : Q) (z : Z) :
  (inject_Z z <= x)%Q -> (x < inject_Z (z + 1))%Q -> Qfloor x = z.
Proof.
  intros Hlo Hhi.
  pose proof (Qfloor_le x) as Flo. pose proof (Qlt_floor x) as Fhi.
  assert (H1 : (z < Qfloor x + 1)%Z) by (rewrite Zlt_Qlt; lra).
  assert (H2 : (Qfloor x < z + 1)%Z) by (rewrite Zlt_Qlt; lra).
  lia.
Qed.

Lemma Qfloor_shift (x : Q) (k : Z) :
  Qfloor (x + inject_Z k) = (Qfloor x + k)%Z.
Proof.
  pose proof (Qfloor_le x) as Flo. pose proof (Qlt_floor x) as Fhi.
  apply Qfloor_unique.
  - rewrite inject_Z_plus. lra.
  - rewrite !inject_Z_plus in *. lra.
Qed.

#[export] Instance Math_round_comp : Proper (Qeq ==> eq) Math_round.
Proof. intros x y E. unfold Math_round. now rewrite E. Qed.

(** Rounding commutes with adding an integer. *)
Lemma Math_round_shift (x : Q) (k : Z) :
  (Math_round (x + inject_Z k) == Math_round x + inject_Z k)%Q.
Proof.
  unfold Math_round.
  assert (E : (x + inject_Z k + (1 # 2) == x + (1 # 2) + inject_Z k)%Q)
    by ring.
  rewrite E, Qfloor_shift, inject_Z_plus. reflexivity.
Qed.

Lemma Math_round_Z (k : Z) : Math_round (inject_Z k) = inject_Z k.
Proof.
  unfold Math_round. f_equal. apply Qfloor_unique.
  - lra.
  - rewrite inject_Z_plus. change (inject_Z 1) with 1%Q. lra.
Qed.

Lemma Math_round_idem (x : Q) : Math_round (Math_round x) = Math_round x.
Proof. exact (Math_round_Z _). Qed.



#[export] Instance round2_comp : Proper (Qeq ==> eq) round2.
Proof. intros x y E. unfold round2. now rewrite E. Qed.

Lemma round2_idem (x : Q) : (round2 (round2 x) == round2 x)%Q.
Proof.
  unfold round2 at 1.
  assert (E : (round2 x * 100 == Math_round (x * 100))%Q)
    by (unfold round2; field).
  rewrite E, Math_round_idem. reflexivity.
Qed.

(** A value written with at most two decimals is its own rounding. *)
Lemma round2_two_decimals (k : Z) :
  (round2 (inject_Z k / 100) == inject_Z k / 100)%Q.
Proof.
  unfold round2.
  assert (E : (inject_Z k / 100 * 100 == inject_Z k)%Q) by field.
  rewrite E, Math_round_Z. reflexivity.
Qed.


End Rounding.

Section Sums.

Lemma Qsum_cons (x : Q) (l : list Q) : Qsum (x :: l) = (x + Qsum l)%Q.
Proof. reflexivity. Qed.

Lemma Qsum_app (l1 l2 : list Q) : (Qsum (l1 ++ l2) == Qsum l1 + Qsum l2)%Q.
Proof.
  induction l1 as [|x l1 IH]; cbn [app].
  - cbn. ring.
  - rewrite !Qsum_cons, IH. ring.
Qed.

Lemma Qsum_replicate (n : nat) (u : Q) :
  (Qsum (replicate n u) == num n * u)%Q.
Proof.
  induction n as [|n IH].
  - cbn. unfold num. cbn. ring.
  - cbn [replicate]. rewrite Qsum_cons, IH.
    unfold num. rewrite Nat2Z.inj_succ, <- Z.add_1_r, inject_Z_plus.
    change (inject_Z 1) with 1%Q. ring.
Qed.

Lemma fold_effort_hours (ts : list Task) (a : Q) :
  (fold_left (fun s t => s + effort_hours t) ts a
   == a + Qsum (map effort_hours ts))%Q.
Proof.
  revert a. induction ts as [|t ts IH]; intros a; cbn [fold_left map].
  - cbn. ring.
  - rewrite IH, Qsum_cons. ring.
Qed.

Lemma taskSum_Qsum (wk : Week) :
  (taskSum wk == Qsum (map effort_hours (tasks wk)))%Q.
Proof. unfold taskSum. rewrite fold_effort_hours. ring. Qed.

End Sums.

(** * Phase classification *)

(** From three weeks on the classification compares [3 * w] with the total
    and with twice the total. *)
Lemma phaseOf_thirds (w t : nat) :
  (3 <= t)%nat ->
  phaseOf w t =
    if bool_decide (3 * w <= t)%nat then foundation
    else if bool_decide (3 * w <= 2 * t)%nat then development
    else application.
Proof.
  intros Ht. unfold phaseOf.
  destruct (Nat.eqb_spec t 1); [lia|]. destruct (Nat.eqb_spec t 2); [lia|].
  cbv zeta.
  change (1 / 3)%Q with (num 1 / num 3)%Q.
  change (2 / 3)%Q with (num 2 / num 3)%Q.
  rewrite !num_le_ratio by lia.
  replace (1 * t)%nat with t by lia. reflexivity.
Qed.

Lemma phaseOf_rule (w weeks : nat) :
  (1 <= w <= weeks)%nat -> phase_rule w weeks (phaseOf w weeks).
Proof.
  intros [Hw Hle].
  destruct (decide (weeks = 1%nat)) as [->|H1]; [now apply rule_single|].
  destruct (decide (weeks = 2%nat)) as [->|H2].
  { destruct (decide (w = 1%nat)) as [->|Hw1].
    - now apply rule_pair_first.
    - assert (w = 2%nat) as -> by lia. now apply rule_pair_second. }
  assert (H3 : (3 <= weeks)%nat) by lia.
  unfold phaseOf.
  destruct (Nat.eqb_spec weeks 1); [lia|].
  destruct (Nat.eqb_spec weeks 2); [lia|].
  cbv zeta.
  destruct (num_le _ (1 / 3)) eqn:E1.
  { apply rule_foundation; [done|]. now apply num_le_true. }
  apply num_le_false, Qlt_not_le in E1.
  destruct (num_le _ (2 / 3)) eqn:E2.
  { apply rule_development; [done..|]. now apply num_le_true. }
  apply num_le_false, Qlt_not_le in E2.
  now apply rule_application.
Qed.

Lemma phase_rule_functional (w weeks : nat) (p q : Phase) :
  phase_rule w weeks p -> phase_rule w weeks q -> p = q.
Proof.
  intros Hp Hq. destruct Hp; destruct Hq; try reflexivity; try lia; tauto.
Qed.

Lemma phaseOf_monotone (total w1 w2 : nat) :
  (1 <= w1)%nat -> (w1 <= w2)%nat -> (w2 <= total)%nat ->
  (phase_rank (phaseOf w1 total) <= phase_rank (phaseOf w2 total))%nat.
Proof.
  intros H1 H12 H2.
  destruct (decide (total = 1%nat)) as [->|T1].
  { assert (w1 = 1%nat) as -> by lia. assert (w2 = 1%nat) as -> by lia. done. }
  destruct (decide (total = 2%nat)) as [->|T2].
  { assert (w1 = 1 \/ w1 = 2)%nat as [-> | ->] by lia;
    assert (w2 = 1 \/ w2 = 2)%nat as [-> | ->] by lia; cbn; lia. }
  rewrite !phaseOf_thirds by lia.
  repeat case_bool_decide; cbn; lia.
Qed.

Lemma phaseOf_last (total : nat) :
  (1 <= total)%nat -> phaseOf total total = application.
Proof.
  intros H.
  destruct (decide (total = 1%nat)) as [->|T1]; [done|].
  destruct (decide (total = 2%nat)) as [->|T2]; [done|].
  rewrite phaseOf_thirds by lia.
  repeat case_bool_decide; try lia; done.
Qed.

(** * The validator *)

Lemma validatePlan_body_spec (p : LearningPlan)
    (errors : list ValidationError) (wk : Week) :
  validatePlan_body p errors wk =
  errors ++ hours_sum_check wk ++ hours_budget_check p wk.
Proof.
  unfold validatePlan_body, hours_sum_check, hours_budget_check, push, Math_abs.
  rewrite !num_gt_dec.
  destruct (Qlt_le_dec _ _), (Qlt_le_dec _ _); cbn;
    rewrite <- ?app_assoc, ?app_nil_r; reflexivity.
Qed.

Lemma validatePlan_loop (p : LearningPlan) (ws : list Week)
    (errors : list ValidationError) :
  fold_left (validatePlan_body p) ws errors =
  errors
  ++ flat_map (fun wk => hours_sum_check wk ++ hours_budget_check p wk) ws.
Proof.
  revert errors. induction ws as [|wk ws IH]; intros errors; cbn.
  - now rewrite app_nil_r.
  - rewrite IH, validatePlan_body_spec, <- !app_assoc. reflexivity.
Qed.

Lemma validatePlan_unfold (p : LearningPlan) :
  validatePlan p = validate_spec p.
Proof.
  unfold validatePlan, validate_spec, weeks_count_check, push.
  rewrite validatePlan_loop.
  destruct (Nat.eqb_spec (length (plan p)) (weeks p)); case_decide;
    try contradiction; reflexivity.
Qed.


Lemma flat_map_nil {A B : Type} (f : A -> list B) (l : list A) :
  (forall x, In x l -> f x = []) -> flat_map f l = [].
Proof.
  induction l as [|x l IH]; intros H; cbn; [reflexivity|].
  rewrite (H x) by now left. apply IH. intros y Hy. apply H. now right.
Qed.

Lemma Forall2_In_r {A B : Type} (P : A -> B -> Prop) (l : list A)
    (k : list B) (y : B) :
  Forall2 P l k -> In y k -> exists x, In x l /\ P x y.
Proof.
  induction 1 as [|x y' l k Hp _ IH]; intros Hin; [destruct Hin|].
  destruct Hin as [<-|Hin].
  - exists x. split; [now left | done].
  - destruct (IH Hin) as (x' & Hx' & Hp'). exists x'.
    split; [now right | done].
Qed.

(** * The generator *)

Section Banks.

Variables (topic goal : string) (idx : nat).

Lemma rotate_length {A : Type} (banks : list (list A)) (i n : nat) :
  banks <> [] -> Forall (fun b => length b = n) banks ->
  length (rotate banks i) = n.
Proof.
  intros Hne Hall. unfold rotate.
  assert (Hlt : (i mod length banks < length banks)%nat).
  { apply Nat.mod_upper_bound. destruct banks; [done | cbn; lia]. }
  rewrite Forall_forall in Hall. apply Hall. apply list_elem_of_In.
  now apply nth_In.
Qed.

Lemma foundationBank_length : length (foundationBank topic idx) = 4%nat.
Proof.
  unfold foundationBank. apply rotate_length; [done|]. repeat constructor.
Qed.

Lemma developmentBank_length : length (developmentBank topic idx) = 4%nat.
Proof.
  unfold developmentBank. apply rotate_length; [done|]. repeat constructor.
Qed.

Lemma applicationBank_length (total : nat) :
  length (applicationBank topic goal idx total) = 4%nat.
Proof.
  unfold applicationBank.
  destruct (idx =? 0)%nat; [reflexivity|].
  destruct (Z.of_nat idx =? Z.of_nat total - 1)%Z; reflexivity.
Qed.

End Banks.

Lemma tasksPerWeek_range (h : Q) : (2 <= tasksPerWeek h <= 4)%nat.
Proof.
  unfold tasksPerWeek. destruct (num_le h 4); [lia|].
  destruct (num_le h 14); lia.
Qed.

Section Distribution.

Variable total : Q.

Lemma distributeHours_length (count : nat) :
  length (distributeHours total count) = count.
Proof.
  unfold distributeHours. now rewrite length_insert, length_replicate.
Qed.

(** With at least one bucket, all buckets but the last hold the unit and the
    last holds the rest. *)
Lemma distributeHours_S (n : nat) :
  distributeHours total (S n) =
  let unit := (Math_round ((total / num (S n)) * 10) / 10)%Q in
  replicate n unit
  ++ [(Math_round ((total - unit * num n) * 100) / 100)%Q].
Proof.
  unfold distributeHours. cbv zeta.
  replace (S n - 1)%nat with n by lia.
  rewrite replicate_S_end, insert_app_r_alt by (rewrite length_replicate; lia).
  rewrite length_replicate, Nat.sub_diag. reflexivity.
Qed.

(** The buckets add up to the two-decimal rounding of the total: the unit is
    a whole number of tenths, so it leaves the rounding of the rest alone. *)
Lemma distributeHours_sum (n : nat) :
  (Qsum (distributeHours total (S n)) == round2 total)%Q.
Proof.
  rewrite distributeHours_S. cbv zeta.
  rewrite Qsum_app, Qsum_replicate, Qsum_cons. change (Qsum []) with 0%Q.
  set (K := Qfloor (total / num (S n) * 10 + (1 # 2))).
  change (Math_round (total / num (S n) * 10)) with (inject_Z K).
  assert (E : ((total - inject_Z K / 10 * num n) * 100
               == total * 100 + inject_Z (- (K * 10 * Z.of_nat n)))%Q).
  { rewrite inject_Z_opp, !inject_Z_mult. unfold num.
    change (inject_Z 10) with 10%Q. field. }
  rewrite E, Math_round_shift, inject_Z_opp, !inject_Z_mult.
  unfold round2, num. change (inject_Z 10) with 10%Q. field.
Qed.


End Distribution.


Lemma imap_effort_hours (selected : list Tpl) (hrs : list Q) :
  length hrs = length selected ->
  map effort_hours
    (imap (fun i t =>
             {| Schema.title := Planner.title t;
                effort_hours := nth i hrs 0%Q;
                Schema.deliverable := Planner.deliverable t |}) selected)
  = hrs.
Proof.
  revert hrs. induction selected as [|t sel IH]; intros [|h hrs] Hlen;
    try discriminate Hlen; [reflexivity|].
  cbn [imap map]. f_equal. apply (IH hrs). now injection Hlen.
Qed.

Section Loop.

Variables (inputs : PlanInputs) (nTasks : nat).

Lemma generatePlan_body_spec (st : PhaseIdx * list Week) (w : nat) :
  exists wk,
    generatePlan_body inputs nTasks st w
    = (phaseIdx_incr (fst st) (phaseOf w (Planner.weeks inputs)),
       snd st ++ [wk])
    /\ week_built inputs nTasks w wk.
Proof.
  destruct st as [phaseIdx plan]. unfold generatePlan_body. cbv zeta.
  eexists. split; [reflexivity|].
  set (templates := match phaseOf w (Planner.weeks inputs) with
                    | foundation => _ | development => _ | application => _
                    end).
  assert (Hlen : length templates = 4%nat).
  { subst templates. destruct (phaseOf w (Planner.weeks inputs)).
    - apply foundationBank_length.
    - apply developmentBank_length.
    - apply applicationBank_length. }
  assert (Hsel : length (take nTasks templates) = Nat.min nTasks 4).
  { now rewrite length_take, Hlen. }
  repeat split. cbn [tasks].
  rewrite imap_effort_hours by now rewrite distributeHours_length.
  now rewrite Hsel.
Qed.

(** The loop appends one built week per week number, in order. *)
Lemma generatePlan_loop (ws : list nat) (st : PhaseIdx * list Week) :
  exists wks,
    snd (fold_left (generatePlan_body inputs nTasks) ws st) = snd st ++ wks
    /\ Forall2 (week_built inputs nTasks) ws wks.
Proof.
  revert st. induction ws as [|w ws IH]; intros st.
  - exists []. split; [now rewrite app_nil_r | constructor].
  - cbn [fold_left].
    destruct (generatePlan_body_spec st w) as (wk & -> & Hwk).
    destruct (IH (phaseIdx_incr (fst st) (phaseOf w (Planner.weeks inputs)),
                  snd st ++ [wk])) as (wks & -> & Hwks).
    exists (wk :: wks). cbn [snd]. split; [now rewrite <- app_assoc|].
    now constructor.
Qed.

Lemma week_numbers (ws : list nat) (wks : list Week) :
  Forall2 (week_built inputs nTasks) ws wks -> map week wks = ws.
Proof.
  induction 1 as [|w wk ws wks (Hw & _) _ IH]; cbn; [reflexivity|].
  now rewrite Hw, IH.
Qed.

End Loop.

Section Generated.

Variable inputs : PlanInputs.

Let h : Q := Planner.hours_per_week inputs.

Lemma generatePlan_result_plan :
  Forall2 (week_built inputs (tasksPerWeek h))
    (seq 1 (Planner.weeks inputs)) (plan (generatePlan_result inputs)).
Proof.
  unfold generatePlan_result. cbv zeta.
  destruct (generatePlan_loop inputs (tasksPerWeek h)
              (seq 1 (Planner.weeks inputs)) (phaseIdx_init, []))
    as (wks & Hs & Hwks).
  fold h. destruct (fold_left _ _ _) as [pi pl]. cbn in Hs |- *. now subst pl.
Qed.

Lemma generatePlan_result_echo :
  Schema.weeks (generatePlan_result inputs) = Planner.weeks inputs
  /\ Schema.hours_per_week (generatePlan_result inputs) = h.
Proof.
  unfold generatePlan_result. cbv zeta.
  destruct (fold_left _ _ _) as [pi pl]. now split.
Qed.

Lemma generatePlan_result_length :
  length (plan (generatePlan_result inputs)) = Planner.weeks inputs.
Proof.
  pose proof generatePlan_result_plan as H.
  apply Forall2_length in H. now rewrite length_seq in H.
Qed.

Lemma week_built_hours (w : nat) (wk : Week) :
  week_built inputs (tasksPerWeek h) w wk ->
  (taskSum wk == round2 h)%Q
  /\ (hours wk == round2 h)%Q
  /\ (roundedSum wk == round2 h)%Q
  /\ (roundedHours wk == round2 h)%Q
  /\ length (tasks wk) = tasksPerWeek h.
Proof.
  intros (_ & Hh & Hts).
  pose proof (tasksPerWeek_range h) as Hn.
  rewrite Nat.min_l in Hts by lia.
  assert (Hsum : (taskSum wk == round2 h)%Q).
  { rewrite taskSum_Qsum, Hts. fold h.
    destruct (tasksPerWeek h) as [|n]; [lia|]. apply distributeHours_sum. }
  assert (Hrs : (roundedSum wk == round2 h)%Q).
  { change (roundedSum wk) with (round2 (taskSum wk)).
    rewrite Hsum. apply round2_idem. }
  repeat split.
  - exact Hsum.
  - now rewrite Hh.
  - exact Hrs.
  - change (roundedHours wk) with (round2 (hours wk)).
    rewrite Hh, Hrs. apply round2_idem.
  - rewrite <- (length_map effort_hours), Hts. apply distributeHours_length.
Qed.

(** Every generated week records the two-decimal rounding of the budget,
    its tasks add up to it, and it has [tasksPerWeek] tasks. *)
Lemma generatePlan_week_hours (wk : Week) :
  In wk (plan (generatePlan_result inputs)) ->
  (taskSum wk == round2 h)%Q
  /\ (hours wk == round2 h)%Q
  /\ (roundedSum wk == round2 h)%Q
  /\ (roundedHours wk == round2 h)%Q
  /\ length (tasks wk) = tasksPerWeek h.
Proof.
  intros Hin.
  destruct (Forall2_In_r _ _ _ _ generatePlan_result_plan Hin) as (w & _ & Hb).
  now apply (week_built_hours w).
Qed.

(** The validator finds nothing in a generated plan when rounding the
    budget to two decimals does not raise it. *)
Lemma generatePlan_validates :
  (round2 h <= h)%Q -> validatePlan (generatePlan_result inputs) = [].
Proof.
  intros Hh. rewrite validatePlan_unfold. unfold validate_spec.
  destruct generatePlan_result_echo as [Ew Eh].
  unfold weeks_count_check. rewrite Ew, generatePlan_result_length.
  rewrite decide_True by done. cbn [app].
  apply flat_map_nil. intros wk Hin.
  destruct (generatePlan_week_hours wk Hin) as (_ & _ & Hrs & Hrh & _).
  unfold hours_sum_check, hours_budget_check. rewrite Eh.
  destruct (Qlt_le_dec (1 # 100) _) as [Hc|_].
  { exfalso. rewrite Hrs, Hrh in Hc.
    assert (E : (round2 h - round2 h == 0)%Q) by ring.
    rewrite E in Hc. discriminate Hc. }
  destruct (Qlt_le_dec _ _) as [Hc|_]; [|reflexivity].
  exfalso. rewrite Hrh in Hc. lra.
Qed.


End Generated.

(** ** Shape of the generated plan *)




(** With a budget written with at most two decimals, every generated week
    records exactly the budget and its tasks add up to exactly the budget,
    and the validator finds nothing. *)
Lemma generatePlan_two_decimals (inputs : PlanInputs) (k : Z) :
  (Planner.hours_per_week inputs == inject_Z k / 100)%Q ->
  validatePlan (generatePlan_result inputs) = []
  /\ forall wk, In wk (plan (generatePlan_result inputs)) ->
       (hours wk == Planner.hours_per_week inputs)%Q
       /\ (taskSum wk == Planner.hours_per_week inputs)%Q.
Proof.
  intros Hk.
  assert (Hr : (round2 (Planner.hours_per_week inputs)
                == Planner.hours_per_week inputs)%Q).
  { rewrite Hk at 2. rewrite <- round2_two_decimals. now rewrite Hk. }
  split.
  - apply generatePlan_validates. cbv zeta. rewrite Hr. apply Qle_refl.
  - intros wk Hin.
    destruct (generatePlan_week_hours inputs wk Hin) as (Hs & Hh & _).
    cbv zeta in Hs, Hh. rewrite Hr in Hs, Hh. now split.
Qed.

(** * Properties of the validator *)



(** C7: [validatePlan] does not stop at the first failure: its result is
    the error of the weeks-count check, if any, followed by the errors of
    the weeks in the order of the plan, each week giving its
    [hours_mismatch] error, if any, before its [hours_exceeded] error, if
    any. *)
Theorem validatePlan_accumulates_in_order (p : LearningPlan) :
  validatePlan p
  = weeks_count_check p
    ++ flat_map (fun wk => hours_sum_check wk ++ hours_budget_check p wk)
         (plan p).
Proof. apply validatePlan_unfold. Qed.

(** All three checks firing on one plan, the first week on both of its
    checks. *)
Example validatePlan_overloaded :
  validatePlan overloaded_plan
  = [ weeks_mismatch_error overloaded_plan;
      hours_mismatch_error mismatched_week;
      hours_exceeded_error overloaded_plan mismatched_week;
      hours_exceeded_error overloaded_plan second_week ].
Proof. vm_compute. reflexivity. Qed.

(** * Properties of the phase classification *)

(** C5: for a week number within [1..weeks], [phaseOf] gives a phase
    exactly when the rule of the specification gives it: the sole week of
    a one-week plan is application; of two weeks the first is foundation
    and the second application; from three weeks on, with
    [ratio = w / weeks], foundation when [ratio <= 1/3], else development
    when [ratio <= 2/3], else application. *)
Theorem phaseOf_follows_rule (w weeks : nat) (p : Phase) :
  (1 <= w <= weeks)%nat ->
  phaseOf w weeks = p <-> phase_rule w weeks p.
Proof.
  intros Hw. split.
  - intros <-. now apply phaseOf_rule.
  - intros Hp. eapply phase_rule_functional; [|exact Hp].
    now apply phaseOf_rule.
Qed.

Lemma phaseOf_follows_rule_witness :
  phaseOf 2 7 = foundation <-> phase_rule 2 7 foundation.
Proof. apply (phaseOf_follows_rule 2 7 foundation). lia. Defined.

(** C10: over the weeks [1..total] of a plan the phase never goes back in
    the order foundation < development < application; hence a week of an
    earlier phase always comes before a week of a later phase, and the last
    week is an application week. *)
Theorem phaseOf_respects_week_order (total : nat) :
  (1 <= total)%nat ->
  (forall w1 w2, (1 <= w1)%nat -> (w1 <= w2)%nat -> (w2 <= total)%nat ->
     (phase_rank (phaseOf w1 total) <= phase_rank (phaseOf w2 total))%nat)
  /\ (forall a b, (1 <= a <= total)%nat -> (1 <= b <= total)%nat ->
        (phase_rank (phaseOf a total) < phase_rank (phaseOf b total))%nat ->
        (a < b)%nat)
  /\ phaseOf total total = application.
Proof.
  intros Ht. split; [|split].
  - intros w1 w2. apply phaseOf_monotone.
  - intros a b Ha Hb Hlt.
    destruct (Nat.lt_ge_cases a b) as [Hab|Hba]; [exact Hab|].
    pose proof (phaseOf_monotone total b a) as Hm. lia.
  - now apply phaseOf_last.
Qed.

Lemma phaseOf_respects_week_order_witness :
  (phase_rank (phaseOf 2 7) <= phase_rank (phaseOf 5 7))%nat
  /\ phaseOf 7 7 = application.
Proof.
  destruct (phaseOf_respects_week_order 7) as (Hmono & _ & Hlast); [lia|].
  split; [apply Hmono; lia | exact Hlast].
Defined.

(** * Properties of the generator *)

Section Generator.

Variable JSON_stringify : LearningPlan -> string.

(** C2: the plan returned by [generatePlan] has as many entries as
    [inputs.weeks], and their [week] fields are 1, 2, ... in this order: the
    k-th entry is numbered k. *)
Theorem generatePlan_weeks_sequential (inputs : PlanInputs) :
  let entries := plan (Planner.plan (generatePlan JSON_stringify inputs)) in
  length entries = Planner.weeks inputs
  /\ map week entries = seq 1 (Planner.weeks inputs)
  /\ forall k, (1 <= k <= Planner.weeks inputs)%nat ->
       exists wk, nth_error entries (k - 1) = Some wk /\ week wk = k.
Proof.
  cbv zeta. cbn [generatePlan Planner.plan].
  pose proof (generatePlan_result_plan inputs) as H.
  pose proof (week_numbers _ _ _ _ H) as Hmap.
  pose proof (generatePlan_result_length inputs) as Hlen.
  repeat split; [done..|].
  intros k Hk.
  destruct (nth_error (plan (generatePlan_result inputs)) (k - 1))
    as [wk|] eqn:E.
  - exists wk. split; [reflexivity|].
    apply (map_nth_error week) in E. rewrite Hmap in E.
    apply nth_error_nth with (d := 0%nat) in E.
    rewrite seq_nth in E by lia. lia.
  - apply nth_error_None in E. lia.
Qed.

(** C8: [fixPlan] returns what [generatePlan] returns on the same inputs,
    whatever the list of error messages. *)
Theorem fixPlan_ignores_errors (inputs : PlanInputs) (errors : list string) :
  fixPlan JSON_stringify inputs errors = generatePlan JSON_stringify inputs.
Proof. reflexivity. Qed.

(** C1, on the inputs of the test suite with one week and 9.999 hours per
    week: the week records 10 hours, and [validatePlan] reports it as
    exceeding the budget. *)
Theorem generatePlan_rejected_at_9_999 :
  validatePlan
    (Planner.plan (generatePlan JSON_stringify (sample 1 (9999 # 1000))))
  = [ {| type := hours_exceeded;
         message := [Text "Week "; Count 1; Text ": "; Hours (1000 # 100);
                     Text "h exceeds the hours_per_week limit of ";
                     Hours (9999 # 1000); Text "h."] |} ].
Proof. vm_compute. reflexivity. Qed.

(** C3, on the same inputs: the efforts of the only week are 3.3, 3.3 and
    3.4, its [hours] field is 10, and 10 is not the budget of 9.999. *)
Theorem generatePlan_hours_at_9_999 :
  let p := Planner.plan (generatePlan JSON_stringify (sample 1 (9999 # 1000))) in
  exists wk,
    plan p = [wk]
    /\ Forall2 Qeq (map effort_hours (tasks wk)) [33 # 10; 33 # 10; 34 # 10]
    /\ (hours wk == 10)%Q
    /\ (roundedSum wk == 10)%Q
    /\ ~ (hours wk == hours_per_week p)%Q
    /\ ~ (roundedSum wk == hours_per_week p)%Q.
Proof.
  cbv zeta. eexists. split; [vm_compute; reflexivity|].
  split; [repeat constructor|].
  repeat split; try (vm_compute; reflexivity); intros H; discriminate H.
Qed.

(** C4, on the inputs of the test suite with one week and 0.04 hours per
    week: the first task of the only week has an effort of 0 hours, which
    [TaskSchema] rejects, and with it [LearningPlanSchema] rejects the
    plan. *)
Theorem generatePlan_zero_effort_at_0_04 :
  let p := Planner.plan (generatePlan JSON_stringify (sample 1 (4 # 100))) in
  LearningPlanSchema p = false
  /\ exists wk t,
       plan p = [wk]
       /\ nth_error (tasks wk) 0 = Some t
       /\ (effort_hours t == 0)%Q
       /\ TaskSchema t = false.
Proof.
  cbv zeta. split; [vm_compute; reflexivity|].
  do 2 eexists. split; [vm_compute; reflexivity|].
  split; [reflexivity|]. split; vm_compute; reflexivity.
Qed.

End Generator.

Lemma generatePlan_weeks_sequential_witness :
  exists wk,
    nth_error (plan (Planner.plan (generatePlan no_text (sample 4 10)))) 2
    = Some wk
    /\ week wk = 3%nat.
Proof.
  apply (proj2 (proj2 (generatePlan_weeks_sequential no_text (sample 4 10)))
           3%nat).
  cbn. lia.
Defined.

(** * Further lemmas *)

(** ** Rounding to two decimals *)




(** ** Membership in the result of the validator *)





Lemma taskSum_efforts (wk wk' : Week) :
  map effort_hours (tasks wk) = map effort_hours (tasks wk') ->
  taskSum wk = taskSum wk'.
Proof.
  unfold taskSum. generalize 0%Q.
  generalize (tasks wk'). induction (tasks wk) as [|t ts IH];
    intros [|t' ts'] a H; try discriminate H; [reflexivity|].
  cbn in *. injection H as -> Hts. now apply IH.
Qed.

(** ** Phases as ranges of week numbers *)

Lemma phase_bounds (W : nat) :
  (foundation_end W <= development_end W <= W)%nat.
Proof.
  unfold foundation_end, development_end.
  destruct (Nat.eqb_spec W 2); [subst; cbn; lia|].
  split.
  - apply Nat.Div0.div_le_mono. lia.
  - apply Nat.Div0.div_le_upper_bound. lia.
Qed.

Lemma phase_start_le_end (W : nat) (ph : Phase) :
  (phase_start W ph <= phase_end W ph <= W)%nat.
Proof.
  pose proof (phase_bounds W). destruct ph; unfold phase_start, phase_end; lia.
Qed.

Lemma phaseOf_interval (w W : nat) :
  (1 <= w <= W)%nat ->
  phaseOf w W =
    if (w <=? foundation_end W)%nat then foundation
    else if (w <=? development_end W)%nat then development
    else application.
Proof.
  intros Hw. unfold foundation_end, development_end.
  destruct (decide (W = 1%nat)) as [->|H1].
  { assert (w = 1%nat) as -> by lia. reflexivity. }
  destruct (decide (W = 2%nat)) as [->|H2].
  { assert (w = 1 \/ w = 2)%nat as [-> | ->] by lia; reflexivity. }
  rewrite phaseOf_thirds by lia.
  destruct (Nat.eqb_spec W 2); [lia|].
  pose proof (Nat.div_mod_eq W 3). pose proof (Nat.mod_upper_bound W 3).
  pose proof (Nat.div_mod_eq (2 * W) 3).
  pose proof (Nat.mod_upper_bound (2 * W) 3).
  destruct (Nat.leb_spec w (W / 3)), (Nat.leb_spec w (2 * W / 3));
    repeat case_bool_decide; try reflexivity; lia.
Qed.

Lemma phaseOf_in_phase (w W : nat) (ph : Phase) :
  (1 <= w <= W)%nat ->
  phaseOf w W = ph <-> (phase_start W ph < w <= phase_end W ph)%nat.
Proof.
  intros Hw. rewrite phaseOf_interval by done.
  pose proof (phase_bounds W).
  destruct (Nat.leb_spec w (foundation_end W)),
    (Nat.leb_spec w (development_end W)); destruct ph;
    unfold phase_start, phase_end;
    split; intros; try discriminate; try reflexivity; try lia; exfalso; lia.
Qed.

(** The weeks of a phase among the first [n]. *)
Lemma phase_prefix_count (W : nat) (ph : Phase) (n : nat) :
  (n <= W)%nat ->
  length (filter (fun v => phaseOf v W = ph) (seq 1 n))
  = (Nat.min n (phase_end W ph) - Nat.min n (phase_start W ph))%nat.
Proof.
  pose proof (phase_start_le_end W ph) as Hb.
  induction n as [|n IH]; intros Hn; [reflexivity|].
  rewrite seq_S, filter_app, length_app, IH by lia.
  cbn [Nat.add]. rewrite filter_cons, filter_nil.
  pose proof (phaseOf_in_phase (S n) W ph) as Hin.
  case_decide as Hph; cbn [length].
  - apply Hin in Hph; lia.
  - rewrite Hin in Hph by lia. lia.
Qed.

Lemma phase_count_closed (W : nat) (ph : Phase) :
  phase_count W ph = (phase_end W ph - phase_start W ph)%nat.
Proof.
  unfold phase_count. rewrite phase_prefix_count by lia.
  pose proof (phase_start_le_end W ph). lia.
Qed.

Lemma appWeekCount_closed (W : nat) :
  appWeekCount W = (W - development_end W)%nat.
Proof. exact (phase_count_closed W application). Qed.

(** ** The loop of the generator, counter by counter *)

Lemma generatePlan_body_build (inputs : PlanInputs) (nTasks : nat)
    (phaseIdx : PhaseIdx) (plan : list Week) (w : nat) :
  generatePlan_body inputs nTasks (phaseIdx, plan) w
  = (phaseIdx_incr phaseIdx (phaseOf w (Planner.weeks inputs)),
     plan ++ [build_week inputs nTasks w
                (phaseIdx (phaseOf w (Planner.weeks inputs)))]).
Proof. reflexivity. Qed.

(** When each counter holds the number of weeks of its phase before week
    [a], the loop over the weeks from [a] on appends, for each week, the
    week built at its occurrence index. *)
Lemma generatePlan_loop_closed (inputs : PlanInputs) (nTasks : nat)
    (n a : nat) (phaseIdx : PhaseIdx) (plan : list Week) :
  let W := Planner.weeks inputs in
  (1 <= a)%nat -> (a - 1 + n <= W)%nat ->
  (forall ph, phaseIdx ph
              = length (filter (fun v => phaseOf v W = ph) (seq 1 (a - 1)))) ->
  snd (fold_left (generatePlan_body inputs nTasks) (seq a n) (phaseIdx, plan))
  = plan ++ map (fun w => build_week inputs nTasks w (occurrence w W))
              (seq a n).
Proof.
  intros W. revert a phaseIdx plan.
  induction n as [|n IH]; intros a phaseIdx plan Ha Hn Hidx.
  - cbn. now rewrite app_nil_r.
  - cbn [seq fold_left map]. rewrite generatePlan_body_build.
    rewrite IH; [| lia | lia |].
    + rewrite <- app_assoc. cbn [app]. do 3 f_equal.
      rewrite Hidx. fold W. rewrite phase_prefix_count by lia.
      unfold occurrence.
      pose proof (proj1 (phaseOf_in_phase a W (phaseOf a W) ltac:(lia))
                    eq_refl).
      lia.
    + intros ph. unfold phaseIdx_incr. rewrite Hidx.
      replace (S a - 1)%nat with (S (a - 1)) by lia.
      rewrite seq_S, filter_app, length_app, filter_cons, filter_nil.
      replace (1 + (a - 1))%nat with a by lia. fold W.
      case_decide as E; case_decide as E'; cbn [length]; try lia; congruence.
Qed.

Lemma generatePlan_result_closed (inputs : PlanInputs) :
  plan (generatePlan_result inputs)
  = map (fun w => build_week inputs
                    (tasksPerWeek (Planner.hours_per_week inputs)) w
                    (occurrence w (Planner.weeks inputs)))
      (seq 1 (Planner.weeks inputs)).
Proof.
  unfold generatePlan_result. cbv zeta.
  pose proof (generatePlan_loop_closed inputs
                (tasksPerWeek (Planner.hours_per_week inputs))
                (Planner.weeks inputs) 1 phaseIdx_init []) as H.
  cbv zeta in H. destruct (fold_left _ _ _) as [pi pl]. cbn [plan snd] in *.
  apply H; [lia | lia | reflexivity].
Qed.

Lemma generated_week_at (inputs : PlanInputs) (w : nat) :
  (1 <= w <= Planner.weeks inputs)%nat ->
  nth_error (plan (generatePlan_result inputs)) (w - 1)
  = Some (build_week inputs (tasksPerWeek (Planner.hours_per_week inputs)) w
            (occurrence w (Planner.weeks inputs))).
Proof.
  intros Hw. rewrite generatePlan_result_closed.
  rewrite nth_error_map, nth_error_seq.
  destruct (Nat.ltb_spec (w - 1) (Planner.weeks inputs)); [|lia].
  replace (1 + (w - 1))%nat with w by lia. reflexivity.
Qed.

(** The first task of an application week built with at least two tasks is
    the first template of its bank. *)
Lemma build_week_application_head (inputs : PlanInputs) (n w idx : nat) :
  (2 <= n)%nat ->
  phaseOf w (Planner.weeks inputs) = application ->
  exists t,
    head (tasks (build_week inputs n w idx)) = Some t
    /\ Some (Schema.title t, Schema.deliverable t)
       = (fun tpl => (Planner.title tpl, Planner.deliverable tpl))
         <$> head (applicationBank (Planner.topic inputs) (Planner.goal inputs)
                     idx (appWeekCount (Planner.weeks inputs))).
Proof.
  intros Hn Hph. unfold build_week. cbv zeta. rewrite Hph. cbn [tasks].
  pose proof (applicationBank_length (Planner.topic inputs)
                (Planner.goal inputs) idx
                (appWeekCount (Planner.weeks inputs))) as Hlen.
  destruct (applicationBank _ _ _ _) as [|t0 ts]; [discriminate Hlen|].
  destruct n as [|n]; [lia|]. cbn [take imap head fmap option_fmap option_map].
  eexists. split; reflexivity.
Qed.


Lemma rotate_period {A : Type} (banks : list (list A)) (idx n : nat) :
  n = length banks -> rotate banks (idx + n) = rotate banks idx.
Proof.
  intros ->. unfold rotate.
  destruct banks as [|b bs]; [cbn [length]; now rewrite Nat.add_0_r|].
  rewrite <- Nat.Div0.add_mod_idemp_r, Nat.Div0.mod_same, Nat.add_0_r.
  reflexivity.
Qed.

Lemma fold_console_log {A : Type} (f : A -> template) (l : list A)
    (c : list template) :
  fold_left (fun c e => console_log c (f e)) l c = c ++ map f l.
Proof.
  revert c. induction l as [|x l IH]; intros c; cbn [fold_left map].
  - now rewrite app_nil_r.
  - rewrite IH. unfold console_log, push. now rewrite <- app_assoc.
Qed.

(** * Further properties of the validator *)



(** X2: when the number of entries differs from [weeks], the
    [weeks_mismatch] error is the first element of the result and no later
    element has that type; when the numbers agree, no element has it. *)
Theorem validatePlan_weeks_mismatch_first (p : LearningPlan) :
  (length (plan p) <> weeks p ->
     exists rest, validatePlan p = weeks_mismatch_error p :: rest
                  /\ forall e, In e rest -> type e <> weeks_mismatch)
  /\ (length (plan p) = weeks p ->
        forall e, In e (validatePlan p) -> type e <> weeks_mismatch).
Proof.
  assert (Hrest : forall e,
            In e (flat_map (fun wk => hours_sum_check wk
                                      ++ hours_budget_check p wk) (plan p)) ->
            type e <> weeks_mismatch).
  { intros e He. apply in_flat_map in He as (wk & _ & He).
    apply in_app_iff in He as [He|He].
    - unfold hours_sum_check in He. destruct (Qlt_le_dec _ _); [|destruct He].
      destruct He as [<-|[]]. discriminate.
    - unfold hours_budget_check in He.
      destruct (Qlt_le_dec _ _); [|destruct He].
      destruct He as [<-|[]]. discriminate. }
  rewrite validatePlan_unfold. unfold validate_spec, weeks_count_check.
  split; intros Hlen; case_decide; try contradiction.
  - eexists. split; [reflexivity | exact Hrest].
  - exact Hrest.
Qed.

Lemma validatePlan_weeks_mismatch_first_witness :
  exists rest, validatePlan overloaded_plan
               = weeks_mismatch_error overloaded_plan :: rest
               /\ forall e, In e rest -> type e <> weeks_mismatch.
Proof.
  apply (proj1 (validatePlan_weeks_mismatch_first overloaded_plan)).
  vm_compute. discriminate.
Defined.



(** X4: [validatePlan] returns at most one error more than twice the number
    of weeks of the plan. *)
Theorem validatePlan_error_bound (p : LearningPlan) :
  (length (validatePlan p) <= 1 + 2 * length (plan p))%nat.
Proof.
  rewrite validatePlan_unfold. unfold validate_spec. rewrite length_app.
  assert (H1 : (length (weeks_count_check p) <= 1)%nat).
  { unfold weeks_count_check. case_decide; cbn; lia. }
  assert (H2 : (length (flat_map (fun wk => hours_sum_check wk
                                            ++ hours_budget_check p wk)
                          (plan p))
                <= 2 * length (plan p))%nat).
  { induction (plan p) as [|wk ws IH]; cbn [flat_map length]; [lia|].
    rewrite !length_app. unfold hours_sum_check at 1, hours_budget_check at 1.
    destruct (Qlt_le_dec _ _), (Qlt_le_dec _ _); cbn [length]; lia. }
  lia.
Qed.





(** X7: which errors [validatePlan] reports, and in which order, depends
    only on [weeks], [hours_per_week] and, week by week, the hours and the
    efforts: week numbers (sequential or not), focus, titles, deliverables
    and checkpoints play no part. *)
Theorem validatePlan_ignores_labels (p p' : LearningPlan) :
  weeks p = weeks p' ->
  hours_per_week p = hours_per_week p' ->
  Forall2 same_hours (plan p) (plan p') ->
  map type (validatePlan p) = map type (validatePlan p').
Proof.
  intros Hw Hh Hall. rewrite !validatePlan_unfold. unfold validate_spec.
  rewrite !map_app. f_equal.
  - unfold weeks_count_check. rewrite <- Hw, (Forall2_length _ _ _ Hall).
    case_decide; reflexivity.
  - induction Hall as [|wk wk' ws ws' [Hhr Hef] _ IH]; [reflexivity|].
    cbn [flat_map]. rewrite !map_app, IH. f_equal. f_equal.
    + unfold hours_sum_check, roundedSum, roundedHours.
      rewrite (taskSum_efforts wk wk' Hef), Hhr.
      destruct (Qlt_le_dec _ _); reflexivity.
    + unfold hours_budget_check, roundedHours. rewrite Hhr, Hh.
      destruct (Qlt_le_dec _ _); reflexivity.
Qed.

Lemma validatePlan_ignores_labels_witness :
  map type (validatePlan valid_plan) = map type (validatePlan relabelled_plan).
Proof.
  apply (validatePlan_ignores_labels valid_plan relabelled_plan);
    [reflexivity | reflexivity |].
  repeat constructor.
Defined.



(** * Further properties of the phase classification *)

(** X9: in whole numbers, week [w] of a plan of [W] weeks is a foundation
    week up to week [W / 3] (week 1 when [W = 2]), a development week after
    that up to week [2 * W / 3], and an application week after that, the
    divisions rounding down. *)
Theorem phaseOf_thresholds (w W : nat) :
  (1 <= w <= W)%nat ->
  (phaseOf w W = foundation <-> (w <= foundation_end W)%nat)
  /\ (phaseOf w W = development
      <-> (foundation_end W < w <= development_end W)%nat)
  /\ (phaseOf w W = application <-> (development_end W < w)%nat).
Proof.
  intros Hw.
  pose proof (phaseOf_in_phase w W foundation Hw) as Hf.
  pose proof (phaseOf_in_phase w W development Hw) as Hd.
  pose proof (phaseOf_in_phase w W application Hw) as Ha.
  unfold phase_start, phase_end in Hf, Hd, Ha.
  rewrite Hf, Hd, Ha. lia.
Qed.

Lemma phaseOf_thresholds_witness :
  phaseOf 3 7 = development <-> (foundation_end 7 < 3 <= development_end 7)%nat.
Proof.
  apply (proj1 (proj2 (phaseOf_thresholds 3 7 ltac:(lia)))).
Defined.

(** X10: from three weeks on, the plan has [W / 3] foundation weeks,
    [2 * W / 3 - W / 3] development weeks and [W - 2 * W / 3] application
    weeks; every phase has at least one week, the counts do not decrease
    from foundation to development to application, and they differ by at
    most one. *)
Theorem phase_counts_balanced (W : nat) :
  (3 <= W)%nat ->
  phase_count W foundation = (W / 3)%nat
  /\ phase_count W development = (2 * W / 3 - W / 3)%nat
  /\ phase_count W application = (W - 2 * W / 3)%nat
  /\ (1 <= phase_count W foundation)%nat
  /\ (phase_count W foundation <= phase_count W development)%nat
  /\ (phase_count W development <= phase_count W application)%nat
  /\ (phase_count W application <= phase_count W foundation + 1)%nat.
Proof.
  intros HW. rewrite !phase_count_closed.
  unfold phase_start, phase_end, foundation_end, development_end.
  destruct (Nat.eqb_spec W 2); [lia|].
  pose proof (Nat.div_mod_eq W 3) as E1.
  pose proof (Nat.mod_upper_bound W 3 ltac:(lia)) as B1.
  pose proof (Nat.div_mod_eq (2 * W) 3) as E2.
  pose proof (Nat.mod_upper_bound (2 * W) 3 ltac:(lia)) as B2.
  set (q1 := (W / 3)%nat) in *. set (r1 := (W mod 3)%nat) in *.
  set (q2 := (2 * W / 3)%nat) in *. set (r2 := ((2 * W) mod 3)%nat) in *.
  lia.
Qed.

Lemma phase_counts_balanced_witness :
  phase_count 7 foundation = (7 / 3)%nat
  /\ phase_count 7 development = (2 * 7 / 3 - 7 / 3)%nat
  /\ phase_count 7 application = (7 - 2 * 7 / 3)%nat
  /\ (1 <= phase_count 7 foundation)%nat
  /\ (phase_count 7 foundation <= phase_count 7 development)%nat
  /\ (phase_count 7 development <= phase_count 7 application)%nat
  /\ (phase_count 7 application <= phase_count 7 foundation + 1)%nat.
Proof. apply (phase_counts_balanced 7). lia. Defined.

(** X11: a plan of at least one week always has an application week, and
    the pre-count [appWeekCount] is their number; it has no development
    week exactly when it has at most two weeks, and no foundation week
    exactly when it has one week. *)
Theorem phases_present (W : nat) :
  (1 <= W)%nat ->
  (1 <= phase_count W application)%nat
  /\ appWeekCount W = phase_count W application
  /\ (phase_count W development = 0%nat <-> (W <= 2)%nat)
  /\ (phase_count W foundation = 0%nat <-> W = 1%nat).
Proof.
  intros HW. split; [|split; [reflexivity|]]; rewrite !phase_count_closed;
    unfold phase_start, phase_end, foundation_end, development_end.
  - assert (2 * W / 3 < W)%nat; [|lia].
    apply Nat.Div0.div_lt_upper_bound. lia.
  - pose proof (Nat.div_mod_eq W 3) as E1.
    pose proof (Nat.mod_upper_bound W 3 ltac:(lia)) as B1.
    pose proof (Nat.div_mod_eq (2 * W) 3) as E2.
    pose proof (Nat.mod_upper_bound (2 * W) 3 ltac:(lia)) as B2.
    set (q1 := (W / 3)%nat) in *. set (r1 := (W mod 3)%nat) in *.
    set (q2 := (2 * W / 3)%nat) in *. set (r2 := ((2 * W) mod 3)%nat) in *.
    destruct (Nat.eqb_spec W 2); lia.
Qed.

Lemma phases_present_witness :
  (1 <= phase_count 2 application)%nat
  /\ appWeekCount 2 = phase_count 2 application
  /\ (phase_count 2 development = 0%nat <-> (2 <= 2)%nat)
  /\ (phase_count 2 foundation = 0%nat <-> 2%nat = 1%nat).
Proof. apply (phases_present 2). lia. Defined.

(** * Further properties of the generator *)

Section GeneratorContent.

Variable JSON_stringify : LearningPlan -> string.
Variable inputs : PlanInputs.

Let W : nat := Planner.weeks inputs.
Let entries : list Week :=
  plan (Planner.plan (generatePlan JSON_stringify inputs)).

(** X12: the loop of [generatePlan], with its three running counters, builds
    for each week [w] of [1..weeks] the week of the loop body at the index
    [w - 1] less the number of weeks of the earlier phases: the counter of
    a phase, when week [w] is reached, holds the number of earlier weeks of
    that phase. *)
Theorem generatePlan_closed_form :
  entries
  = map (fun w =>
           build_week inputs (tasksPerWeek (Planner.hours_per_week inputs)) w
             (w - 1 - phase_start W (phaseOf w W)))
      (seq 1 W).
Proof. apply generatePlan_result_closed. Qed.

(** X13: the first task of an application week is the project design task,
    quoting the goal, in the first application week; otherwise the
    capstone completion task in the last week of the plan; otherwise the
    next-feature task.  A plan with a single application week (up to three
    weeks) therefore gets the design task and never the completion task. *)
Theorem generatePlan_application_tasks (w : nat) :
  (development_end W < w <= W)%nat ->
  exists wk t,
    nth_error entries (w - 1) = Some wk
    /\ head (tasks wk) = Some t
    /\ Schema.title t =
         if (w =? development_end W + 1)%nat then
           "Design the capstone project architecture for goal: "
           +:+ dquote +:+ Planner.goal inputs +:+ dquote
         else if (w =? W)%nat then
           "Complete and polish the capstone project"
         else "Implement the next planned feature set".
Proof.
  intros Hw.
  assert (Hr : (1 <= w <= W)%nat) by lia.
  assert (Hph : phaseOf w W = application).
  { apply phaseOf_in_phase; [done|]. unfold phase_start, phase_end. lia. }
  pose proof (tasksPerWeek_range (Planner.hours_per_week inputs)) as Hn.
  destruct (build_week_application_head inputs
              (tasksPerWeek (Planner.hours_per_week inputs)) w
              (occurrence w W) (proj1 Hn) Hph) as (t & Hhead & Ht).
  eexists. exists t. split; [now apply generated_week_at|].
  split; [exact Hhead|].
  fold W in Ht. rewrite appWeekCount_closed in Ht.
  unfold occurrence in Ht. rewrite Hph in Ht. unfold phase_start in Ht.
  unfold applicationBank in Ht.
  destruct (Nat.eqb_spec w (development_end W + 1)) as [E1|E1].
  { destruct (Nat.eqb_spec (w - 1 - development_end W) 0); [|lia].
    cbn in Ht. now injection Ht. }
  destruct (Nat.eqb_spec (w - 1 - development_end W) 0); [lia|].
  destruct (Nat.eqb_spec w W) as [E2|E2].
  { destruct (Z.eqb_spec (Z.of_nat (w - 1 - development_end W))
                (Z.of_nat (W - development_end W) - 1)); [|lia].
    cbn in Ht. now injection Ht. }
  destruct (Z.eqb_spec (Z.of_nat (w - 1 - development_end W))
              (Z.of_nat (W - development_end W) - 1)); [lia|].
  cbn in Ht. now injection Ht.
Qed.

(** X14: the first week of the foundation phase is labelled "Introduction &
    Setup" with the topic, and foundation week [w >= 2] is labelled
    "Fundamentals — Part [w]" with the topic. *)
Theorem generatePlan_foundation_focus (w : nat) :
  (1 <= w <= foundation_end W)%nat ->
  exists wk,
    nth_error entries (w - 1) = Some wk
    /\ focus wk =
         if (w =? 1)%nat then "Introduction & Setup — " +:+ Planner.topic inputs
         else Planner.topic inputs +:+ " Fundamentals — Part " +:+ pretty w.
Proof.
  intros Hw. pose proof (phase_bounds W) as Hb.
  assert (Hr : (1 <= w <= W)%nat) by lia.
  assert (Hph : phaseOf w W = foundation).
  { apply phaseOf_in_phase; [done|]. unfold phase_start, phase_end. lia. }
  eexists. split; [now apply generated_week_at|].
  unfold build_week. cbv zeta. cbn [focus]. fold W. rewrite Hph.
  unfold occurrence. rewrite Hph. unfold phase_start, focusLine.
  destruct (Nat.eqb_spec w 1) as [->|E].
  - reflexivity.
  - destruct (Nat.eqb_spec (w - 1 - 0) 0); [lia|].
    replace (w - 1 - 0 + 1)%nat with w by lia. reflexivity.
Qed.

(** X15: the checkpoint of every application week, the last week of the
    plan among them, is the capstone sentence followed by the goal. *)
Theorem generatePlan_application_checkpoint (w : nat) :
  (development_end W < w <= W)%nat ->
  exists wk,
    nth_error entries (w - 1) = Some wk
    /\ week wk = w
    /\ Schema.checkpoint wk
       = "Capstone progress demonstrates ability to: " +:+ Planner.goal inputs.
Proof.
  intros Hw.
  assert (Hr : (1 <= w <= W)%nat) by lia.
  assert (Hph : phaseOf w W = application).
  { apply phaseOf_in_phase; [done|]. unfold phase_start, phase_end. lia. }
  eexists. split; [now apply generated_week_at|].
  unfold build_week. cbv zeta. cbn [Schema.checkpoint week]. fold W.
  now rewrite Hph.
Qed.

End GeneratorContent.

Lemma generatePlan_application_tasks_witness :
  exists wk t,
    nth_error (plan (Planner.plan (generatePlan no_text (sample 6 10)))) 5
    = Some wk
    /\ head (tasks wk) = Some t
    /\ Schema.title t = "Complete and polish the capstone project".
Proof.
  apply (generatePlan_application_tasks no_text (sample 6 10) 6).
  vm_compute. lia.
Defined.

Lemma generatePlan_foundation_focus_witness :
  exists wk,
    nth_error (plan (Planner.plan (generatePlan no_text (sample 6 10)))) 1
    = Some wk
    /\ focus wk = "TypeScript Fundamentals — Part 2".
Proof.
  apply (generatePlan_foundation_focus no_text (sample 6 10) 2).
  vm_compute. lia.
Defined.

Lemma generatePlan_application_checkpoint_witness :
  exists wk,
    nth_error (plan (Planner.plan (generatePlan no_text (sample 6 10)))) 5
    = Some wk
    /\ week wk = 6%nat
    /\ Schema.checkpoint wk
       = "Capstone progress demonstrates ability to: Build a REST API".
Proof.
  apply (generatePlan_application_checkpoint no_text (sample 6 10) 6).
  vm_compute. lia.
Defined.

(** X16: the weeks of the generated plan depend on the topic, the goal, the
    number of weeks and the budget only: the level and the constraints of
    the inputs play no part in them. *)
Theorem generatePlan_ignores_level_and_constraints
    (JSON_stringify : LearningPlan -> string) (i1 i2 : PlanInputs) :
  Planner.topic i1 = Planner.topic i2 ->
  Planner.goal i1 = Planner.goal i2 ->
  Planner.weeks i1 = Planner.weeks i2 ->
  Planner.hours_per_week i1 = Planner.hours_per_week i2 ->
  plan (Planner.plan (generatePlan JSON_stringify i1))
  = plan (Planner.plan (generatePlan JSON_stringify i2)).
Proof.
  intros Ht Hg Hw Hh. cbn [generatePlan Planner.plan].
  rewrite !generatePlan_result_closed.
  destruct i1, i2. cbn in *. subst. reflexivity.
Qed.

Lemma generatePlan_ignores_level_and_constraints_witness :
  plan (Planner.plan (generatePlan no_text (sample 6 10)))
  = plan (Planner.plan (generatePlan no_text (sample_other 6 10))).
Proof.
  apply (generatePlan_ignores_level_and_constraints no_text
           (sample 6 10) (sample_other 6 10)); reflexivity.
Defined.

(** X17: the foundation banks repeat with period two and the development
    banks with period three, and within a period the banks differ:
    consecutive weeks of one of these phases get different tasks. *)
Theorem banks_rotate (topic : string) (idx : nat) :
  foundationBank topic (idx + 2) = foundationBank topic idx
  /\ foundationBank topic (idx + 1) <> foundationBank topic idx
  /\ developmentBank topic (idx + 3) = developmentBank topic idx
  /\ developmentBank topic (idx + 1) <> developmentBank topic idx
  /\ developmentBank topic (idx + 2) <> developmentBank topic idx.
Proof.
  assert (M2 : (idx mod 2 < 2)%nat) by (apply Nat.mod_upper_bound; lia).
  assert (M3 : (idx mod 3 < 3)%nat) by (apply Nat.mod_upper_bound; lia).
  assert (D : forall l l' : list Tpl,
            Planner.deliverable <$> head l <> Planner.deliverable <$> head l' ->
            l <> l') by (intros l l' H ->; now apply H).
  repeat split.
  - unfold foundationBank. cbv zeta. now apply rotate_period.
  - unfold foundationBank, rotate. cbv zeta. cbn [length].
    rewrite <- Nat.Div0.add_mod_idemp_l.
    destruct (idx mod 2)%nat as [|[|m]]; [| |lia]; apply D; cbn; discriminate.
  - unfold developmentBank. cbv zeta. now apply rotate_period.
  - unfold developmentBank, rotate. cbv zeta. cbn [length].
    rewrite <- Nat.Div0.add_mod_idemp_l.
    destruct (idx mod 3)%nat as [|[|[|m]]]; [| | |lia];
      apply D; cbn; discriminate.
  - unfold developmentBank, rotate. cbv zeta. cbn [length].
    rewrite <- Nat.Div0.add_mod_idemp_l.
    destruct (idx mod 3)%nat as [|[|[|m]]]; [| | |lia];
      apply D; cbn; discriminate.
Qed.

(** * Further properties of the hour distribution *)





Section GeneratorHours.

Variable JSON_stringify : LearningPlan -> string.
Variable inputs : PlanInputs.

Let h : Q := Planner.hours_per_week inputs.
Let result : LearningPlan := Planner.plan (generatePlan JSON_stringify inputs).

(** X20: every week of the generated plan has two tasks when the budget is
    at most 4 hours, three when it is above 4 and at most 14, and four when
    it is above 14. *)
Theorem generatePlan_task_count (wk : Week) :
  In wk (plan result) ->
  ((h <= 4)%Q -> length (tasks wk) = 2%nat)
  /\ ((4 < h)%Q -> (h <= 14)%Q -> length (tasks wk) = 3%nat)
  /\ ((14 < h)%Q -> length (tasks wk) = 4%nat).
Proof.
  intros Hin.
  destruct (generatePlan_week_hours inputs wk Hin) as (_ & _ & _ & _ & Hlen).
  cbv zeta in Hlen. fold h in Hlen. rewrite Hlen. unfold tasksPerWeek.
  destruct (num_le h 4) eqn:E4;
    [apply num_le_true in E4|apply num_le_false in E4];
    (destruct (num_le h 14) eqn:E14;
     [apply num_le_true in E14|apply num_le_false in E14]);
    repeat split; intros; try reflexivity; lra.
Qed.

(** X21: all the weeks of the generated plan carry the same efforts, those
    of [distributeHours] on the budget and the number of tasks per week. *)
Theorem generatePlan_uniform_efforts (wk : Week) :
  In wk (plan result) ->
  map effort_hours (tasks wk) = distributeHours h (tasksPerWeek h).
Proof.
  intros Hin.
  destruct (Forall2_In_r _ _ _ _ (generatePlan_result_plan inputs) Hin)
    as (w & _ & _ & _ & Hts).
  cbv zeta in Hts. fold h in Hts.
  pose proof (tasksPerWeek_range h). now rewrite Nat.min_l in Hts by lia.
Qed.





End GeneratorHours.

Lemma only_week_generated :
  In only_week (plan (Planner.plan (generatePlan no_text (sample 1 10)))).
Proof. vm_compute. left. reflexivity. Defined.

Lemma generatePlan_task_count_witness : length (tasks only_week) = 3%nat.
Proof.
  apply (proj1 (proj2 (generatePlan_task_count no_text (sample 1 10)
                         only_week only_week_generated)));
    vm_compute; [reflexivity | discriminate].
Defined.

Lemma generatePlan_uniform_efforts_witness :
  map effort_hours (tasks only_week)
  = distributeHours 10 (tasksPerWeek 10).
Proof.
  apply (generatePlan_uniform_efforts no_text (sample 1 10) only_week
           only_week_generated).
Defined.





(** * Properties of the retry of [main] *)

Section MainRun.

Variable JSON_stringify : LearningPlan -> string.
Variable message_text : template -> string.
Variable inputs : PlanInputs.

Let generated : PlanResult := generatePlan JSON_stringify inputs.
Let errors : list ValidationError := validatePlan (Planner.plan generated).
Let outcome : Outcome := main_run JSON_stringify message_text inputs.

(** X26: whether or not the first attempt validates, the plan that [main]
    saves and goes on to print is the one [generatePlan] returned, and the
    text written to [plan.json] is its [rawJson]: the retry changes
    nothing. *)
Theorem main_run_saves_generated_plan :
  finalPlan outcome = Planner.plan generated
  /\ plan_json outcome = rawJson generated.
Proof.
  subst outcome. unfold main_run. cbv zeta.
  fold generated. fold errors.
  destruct (0 <? length (if 0 <? length errors
                         then map message errors else []))%nat;
    [|split; reflexivity].
  unfold fixPlan. fold generated. fold errors.
  destruct (0 <? length errors)%nat; split; reflexivity.
Qed.

(** X27: the console of [main] is the announcement, then either the single
    line that the plan validated, or the errors of the first attempt
    followed by the same errors as remaining after the retry and the line
    that the best available plan is saved, then the line that the plan was
    saved; the line that the plan was fixed is never printed. *)
Theorem main_run_console :
  console outcome
  = [ [Text (nl +:+ "Generating your learning plan…")] ]
    ++ (match errors with
        | [] => [ [Text "✅ Plan validated!"] ]
        | _ :: _ =>
            [ [Text (nl +:+ "⚠️  Issues with first attempt:")] ]
            ++ bullets errors
            ++ [ [Text (nl +:+ "Retrying with corrected logic…")];
                 [Text (nl +:+ "⚠️  Some issues remain after retry:")] ]
            ++ bullets errors
            ++ [ [Text "Saving the best available plan."] ]
        end)
    ++ [ [Text (nl +:+ "📄 Plan saved to plan.json")] ].
Proof.
  subst outcome. unfold main_run. cbv zeta.
  unfold fixPlan. fold generated. fold errors.
  assert (Hb : forall l,
            map (fun m => Text "   • " :: m) (map message l) = bullets l)
    by (intros l; unfold bullets; now rewrite map_map).
  destruct errors as [|e es] eqn:E; [reflexivity|].
  change (0 <? length (e :: es))%nat with true. cbv iota.
  rewrite length_map. change (0 <? length (e :: es))%nat with true. cbv iota.
  rewrite !fold_console_log, Hb. fold (bullets (e :: es)).
  unfold console_log, push. cbn [console].
  rewrite <- !app_assoc. reflexivity.
Qed.

End MainRun.
